(** * solar-orionjs: the SolarWinds Orion (SWIS) client of [src/index.js]

    A shallow embedding of the client: the configuration it holds, the
    address and request-options builders, the seven operations and the
    response normalizer [_parseRequestResults], followed by the properties
    the specification states about them. *)

From stdpp Require Import base option list strings gmap pretty.

#[local] Set Warnings "-register-all".
#[local] Open Scope string_scope.
#[local] Open Scope Z_scope.

(** ** The values the client handles

    The client is untyped: payloads, bodies, errors and responses are
    whatever the caller and the transport hand over.  [value] is the data
    fragment of the language: [undefined], [null], booleans, numbers,
    strings, arrays and plain objects (a finite map from property names to
    values).  Numbers are the integers: the only numbers the client inspects
    are a status code, a length and a port. *)

Inductive value : Type :=
  | VUndefined
  | VNull
  | VBool (b : bool)
  | VNum (z : Z)
  | VStr (s : string)
  | VArr (elements : list value)
  | VObj (fields : gmap string value).

(** Errors the language raises on its own. *)
Inductive error : Type :=
  | TypeError
  | ReferenceError (name : string).

(** The outcome of evaluating an expression: a value or a raised error. *)
Inductive completion (A : Type) : Type :=
  | Ok (a : A)
  | Throw (e : error).
Arguments Ok {A} a.
Arguments Throw {A} e.

#[global] Instance completion_ret : MRet completion := @Ok.
#[global] Instance completion_bind : MBind completion :=
  λ A B f m, match m with Ok a => f a | Throw e => Throw e end.
#[global] Instance completion_fmap : FMap completion :=
  λ A B f m, match m with Ok a => Ok (f a) | Throw e => Throw e end.

(** [!v] is [negb (truthy v)]: the falsy values are [undefined], [null],
    [false], [0] and the empty string; every array and object is truthy. *)
Definition truthy (v : value) : bool :=
  match v with
  | VUndefined | VNull => false
  | VBool b => b
  | VNum z => negb (z =? 0)
  | VStr s => negb (String.eqb s "")
  | VArr _ | VObj _ => true
  end.

(** [v != undefined], the loose comparison: false exactly on [undefined]
    and [null]. *)
Definition neq_undefined (v : value) : bool :=
  match v with
  | VUndefined | VNull => false
  | _ => true
  end.

(** [v.p] for the property names the client reads ([statusCode],
    [statusMessage], [results], [length]): a TypeError on [undefined] and
    [null]; an own field of an object; the length of an array or a string;
    [undefined] otherwise (none of these names is inherited). *)
Definition get (v : value) (p : string) : completion value :=
  match v with
  | VUndefined | VNull => Throw TypeError
  | VObj fields => Ok (default VUndefined (fields !! p))
  | VArr elements =>
      Ok (if String.eqb p "length" then VNum (Z.of_nat (length elements))
          else VUndefined)
  | VStr s =>
      Ok (if String.eqb p "length" then VNum (Z.of_nat (String.length s))
          else VUndefined)
  | VBool _ | VNum _ => Ok VUndefined
  end.

(** Number to text, as a template literal or [+] renders an integer (the
    decimal numeral, which is the rendering below 10^21 in magnitude). *)
Definition NumberToString (z : Z) : string := pretty z.

(** ** Configuration (spec section 3) and the objects that hold it *)

Record credentials : Type := { username : string; password : string }.

Record configuration : Type :=
  { server : string; port : Z; auth : credentials }.

(** Configuration objects are shared by reference: a client stores a
    reference, and the objects themselves live in a heap. *)
Definition loc : Type := positive.

(** What [this.options] may hold: the constructor and [setOptions] store
    whatever they are given. *)
Inductive reference : Type :=
  | RUndefined
  | RNull
  | RObject (l : loc).

(** [var defaultOptions = {...}] (lines 40-47): one object, allocated when
    the module is loaded. *)
Definition defaultOptions : loc := 1%positive.

Definition default_configuration : configuration :=
  {| server := "127.0.0.1";
     port := 17778;
     auth := {| username := "admin"; password := "" |} |}.

(** The heap once the module is loaded. *)
Definition module_heap : gmap loc configuration :=
  {[ defaultOptions := default_configuration ]}.

Record client : Type := { options : reference }.

(** [var Orion = function (options) {...}] (lines 24-26): the test is the
    strict [options !== undefined]. *)
Definition Orion (options : reference) : client :=
  Build_client
    (match options with
     | RUndefined => RObject defaultOptions
     | _ => options
     end).

Definition init (options : reference) : client := Orion options.

Definition getOptions (this : client) : reference := options this.

Definition setOptions (this : client) (options : reference) : client :=
  Build_client options.

(** Reading a property of [this.options]: a TypeError on [undefined] and
    [null].  Objects are never freed, so a reference held by a client is in
    the heap; the model gives a dangling one the outcome of [undefined]. *)
Definition deref (h : gmap loc configuration) (r : reference)
  : completion configuration :=
  match r with
  | RObject l =>
      match h !! l with
      | Some C => Ok C
      | None => Throw TypeError
      end
  | RUndefined | RNull => Throw TypeError
  end.

(** ** Address builder and request options builder (lines 181-199) *)

Module Address.
Record t : Type :=
  { fa : string; q : string; c : string; i : string; bd : string }.
End Address.

Module RequestOptions.
Record t : Type :=
  { json : value; auth : credentials; rejectUnauthorized : bool }.
End RequestOptions.

Definition _constructServerPostRequest (options : configuration) (json : value)
  : RequestOptions.t :=
  let result :=
    {| RequestOptions.json := json;
       RequestOptions.auth := auth options;
       RequestOptions.rejectUnauthorized := false |} in
  result.

Definition _cspr := _constructServerPostRequest.

Definition _getFullAddress (options : configuration) : Address.t :=
  let fa :=
    "https://" +:+ server options +:+ ":" +:+ NumberToString (port options)
      +:+ "/SolarWinds/InformationService/v3/Json/" in
  {| Address.fa := fa;
     Address.q := fa +:+ "Query";
     Address.c := fa +:+ "Create/";
     Address.i := fa +:+ "Invoke/";
     Address.bd := fa +:+ "BulkDelete" |}.

Definition _gfa := _getFullAddress.

(** ** The operations (lines 68-161)

    An operation evaluates its address and its request options and hands
    them to the transport ([request.post], [request.get], [request.del]);
    [http_call] is that call.  Evaluating the arguments may raise an error,
    which reaches the caller before anything is sent. *)

Inductive verb : Type := GET | POST | DELETE.

Record http_call : Type :=
  { method : verb; url : string; opts : RequestOptions.t }.

Definition query (h : gmap loc configuration) (this : client) (query : value)
  : completion http_call :=
  options ← deref h (options this);
  Ok {| method := POST;
        url := Address.q (_gfa options);
        opts := _cspr options query |}.

Definition update (h : gmap loc configuration) (this : client)
    (update : value) (swisUri : string) : completion http_call :=
  options ← deref h (options this);
  Ok {| method := POST;
        url := Address.fa (_gfa options) +:+ swisUri;
        opts := _cspr options update |}.

Definition read (h : gmap loc configuration) (this : client)
    (swisUri : string) : completion http_call :=
  options ← deref h (options this);
  Ok {| method := GET;
        url := Address.fa (_gfa options) +:+ swisUri;
        opts := _cspr options (VObj ∅) |}.

Definition invoke (h : gmap loc configuration) (this : client)
    (verb : string) (data : value) : completion http_call :=
  options ← deref h (options this);
  Ok {| method := POST;
        url := Address.i (_gfa options) +:+ verb;
        opts := _cspr options data |}.

Definition remove (h : gmap loc configuration) (this : client)
    (swisUri : string) : completion http_call :=
  options ← deref h (options this);
  Ok {| method := DELETE;
        url := Address.fa (_gfa options) +:+ swisUri;
        opts := _cspr options (VObj ∅) |}.

Definition removeBulk (h : gmap loc configuration) (this : client)
    (swisUris : value) : completion http_call :=
  options ← deref h (options this);
  Ok {| method := POST;
        url := Address.bd (_gfa options);
        opts := _cspr options (VObj {[ "uris" := swisUris ]}) |}.

(** ** The Result Envelope (spec section 3) *)

Record status_t : Type := { code : value; message : value }.

Record envelope : Type :=
  { err : value; results : value; status : status_t }.

(** What one call of an operation comes to: an error raised to the caller
    before a request is sent, the envelope handed to the callback, or an
    error raised later, inside the transport's completion handler. *)
Inductive outcome : Type :=
  | ThrownToCaller (e : error)
  | CalledBack (env : envelope)
  | ThrownInHandler (e : error).

(** The seven entries of the prototype table (lines 28-34) with their
    arguments, the callback apart. *)
Inductive invocation : Type :=
  | Query (query : value)
  | Invoke (verb : string) (data : value)
  | Update (update : value) (swisUri : string)
  | Read (swisUri : string)
  | Create (data : value) (object : string)
  | Remove (swisUri : string)
  | RemoveBulk (swisUris : value).

Definition is_create (inv : invocation) : bool :=
  match inv with
  | Create _ _ => true
  | _ => false
  end.

(** The payload each operation sends (spec section 4.1): the query
    descriptor, the argument array, the patch, the data object, the wrapped
    URI list, and an empty object for [read] and [remove]. *)
Definition payload (inv : invocation) : value :=
  match inv with
  | Query query => query
  | Invoke _ data => data
  | Update update _ => update
  | Read _ => VObj ∅
  | Create data _ => data
  | Remove _ => VObj ∅
  | RemoveBulk swisUris => VObj {[ "uris" := swisUris ]}
  end.

(** The URL of an endpoint as the specification writes it (section 4.2):
    [https://<server>:<port>/SolarWinds/InformationService/v3/Json/<suffix>]. *)
Definition spec_url (C : configuration) (suffix : string) : string :=
  "https://" +:+ server C +:+ ":" +:+ NumberToString (port C)
    +:+ "/SolarWinds/InformationService/v3/Json/" +:+ suffix.

(** The method and the path below the base URL of each operation, as the
    specification lists them (section 4.1). *)
Definition spec_method (inv : invocation) : verb :=
  match inv with
  | Read _ => GET
  | Remove _ => DELETE
  | Query _ | Invoke _ _ | Update _ _ | Create _ _ | RemoveBulk _ => POST
  end.

Definition spec_path (inv : invocation) : string :=
  match inv with
  | Query _ => "Query"
  | Invoke verb _ => "Invoke/" +:+ verb
  | Update _ swisUri | Read swisUri | Remove swisUri => swisUri
  | Create _ object => "Create/" +:+ object
  | RemoveBulk _ => "BulkDelete"
  end.

(** The values [==] compares with a number on its own, without a conversion
    by the host: [undefined], [null], booleans and numbers. *)
Definition scalar (v : value) : bool :=
  match v with
  | VUndefined | VNull | VBool _ | VNum _ => true
  | VStr _ | VArr _ | VObj _ => false
  end.

(** One host on which the model is run in the examples further down.  None
    of them compares text or an object with a number or appends an object to
    a string, so for them the conversions are never consulted. *)
Definition sample_ToNumber : value -> completion (option Z) :=
  λ _, Ok None.
Definition sample_ToString : value -> completion string :=
  λ _, Ok "[object Object]".
Definition sample_global_object : gmap string value := ∅.
(** A transport that finds the connection refused. *)
Definition refused : http_call -> value * value * value :=
  λ _, (VStr "ECONNREFUSED", VUndefined, VUndefined).

Section Host.

(** What the host supplies and the repository does not contain.

    - [ToNumber_host]: the number a string, an array or an object converts
      to when [==] compares it with a number (ToPrimitive, then ToNumber of
      the resulting text); [None] is a result that is no integer (NaN
      included), and the conversion of an object may raise a TypeError.
    - [ToString_host]: the text of an array or an object under [+].
    - [global_object]: the properties of the global object, where an
      identifier bound neither in the function nor in the module is looked up.
    - [transport]: the [(err, res, body)] triple with which the transport of
      [request] completes a call. *)
Variable ToNumber_host : value -> completion (option Z).
Variable ToString_host : value -> completion string.
Variable global_object : gmap string value.
Variable transport : http_call -> value * value * value.

(** [v == k] for a number [k] (the loose comparison): [undefined] and [null]
    equal no number, a boolean counts as 0 or 1, and text and objects are
    converted by the host. *)
Definition loose_eq_number (v : value) (k : Z) : completion bool :=
  match v with
  | VUndefined | VNull => Ok false
  | VBool b => Ok ((if b then 1 else 0) =? k)
  | VNum z => Ok (z =? k)
  | VStr _ | VArr _ | VObj _ =>
      n ← ToNumber_host v; Ok (bool_decide (n = Some k))
  end.

(** [s + v] for a string [s]: the concatenation of [s] and the text of [v]. *)
Definition string_plus (s : string) (v : value) : completion string :=
  match v with
  | VUndefined => Ok (s +:+ "undefined")
  | VNull => Ok (s +:+ "null")
  | VBool b => Ok (s +:+ (if b then "true" else "false"))
  | VNum z => Ok (s +:+ NumberToString z)
  | VStr t => Ok (s +:+ t)
  | VArr _ | VObj _ => t ← ToString_host v; Ok (s +:+ t)
  end.

(** An identifier read in a function body: a parameter of the function when
    there is one of that name, else a property of the global object, else a
    ReferenceError.  (The module's own top-level names are functions and
    [defaultOptions]; the body of [create] reads none of them this way.) *)
Definition lookup_identifier (frame : gmap string value) (x : string)
  : completion value :=
  match frame !! x with
  | Some v => Ok v
  | None =>
      match global_object !! x with
      | Some v => Ok v
      | None => Throw (ReferenceError x)
      end
  end.

(** [create] (lines 114-118): the address is [_gfa(this.options).c +
    orionObject], and [orionObject] is not a parameter ([data], [object] and
    [callback] are). *)
Definition create (h : gmap loc configuration) (this : client)
    (data : value) (object : string) : completion http_call :=
  options ← deref h (options this);
  orionObject ←
    lookup_identifier {[ "data" := data; "object" := VStr object ]}
      "orionObject";
  address ← string_plus (Address.c (_gfa options)) orionObject;
  Ok {| method := POST; url := address; opts := _cspr options data |}.

Definition dispatch (h : gmap loc configuration) (this : client)
    (inv : invocation) : completion http_call :=
  match inv with
  | Query q => query h this q
  | Invoke verb data => invoke h this verb data
  | Update u swisUri => update h this u swisUri
  | Read swisUri => read h this swisUri
  | Create data object => create h this data object
  | Remove swisUri => remove h this swisUri
  | RemoveBulk swisUris => removeBulk h this swisUris
  end.

(** [_parseRequestResults] (lines 203-237).  The result is the envelope the
    callback is called with; each path calls it once. *)
Definition _parseRequestResults (err res body : value) : completion envelope :=
  let res := if neq_undefined res then res else VObj ∅ in
  success ←
    (if negb (truthy err)
     then statusCode ← get res "statusCode"; loose_eq_number statusCode 200
     else Ok false);
  if (success : bool) then
    has_results ←
      (if neq_undefined body
       then r ← get body "results"; Ok (truthy r)
       else Ok false);
    results ←
      (if (has_results : bool) then
         r ← get body "results";
         length ← get r "length";
         empty ← loose_eq_number length 0;
         Ok (if (empty : bool) then VNull else r)
       else if neq_undefined body then Ok body
       else Ok VUndefined);
    statusCode ← get res "statusCode";
    statusMessage ← get res "statusMessage";
    Ok {| err := VUndefined;
          results := results;
          status := {| code := statusCode; message := statusMessage |} |}
  else
    statusCode ← get res "statusCode";
    statusMessage ← get res "statusMessage";
    Ok {| err := (if neq_undefined err then err else body);
          results := VUndefined;
          status := {| code := statusCode; message := statusMessage |} |}.

(** One call of an operation from start to callback: the arguments are
    evaluated, the transport completes the call, and its completion handler
    [(err, res, body) => _parseRequestResults(err, res, body, callback)]
    runs. *)
Definition perform (h : gmap loc configuration) (this : client)
    (inv : invocation) : outcome :=
  match dispatch h this inv with
  | Throw e => ThrownToCaller e
  | Ok call =>
      let '(err, res, body) := transport call in
      match _parseRequestResults err res body with
      | Ok env => CalledBack env
      | Throw e => ThrownInHandler e
      end
  end.

(** Line 207's second test, [res.statusCode == 200], after line 205 has
    replaced an absent response by [{}]. *)
Definition status_is_200 (res : value) : completion bool :=
  statusCode ← get (if neq_undefined res then res else VObj ∅) "statusCode";
  loose_eq_number statusCode 200.

(** The value of the local [results] on the success path (lines 209-222). *)
Definition results_of (body : value) : completion value :=
  has_results ←
    (if neq_undefined body
     then r ← get body "results"; Ok (truthy r)
     else Ok false);
  if (has_results : bool) then
    r ← get body "results";
    length ← get r "length";
    empty ← loose_eq_number length 0;
    Ok (if (empty : bool) then VNull else r)
  else if neq_undefined body then Ok body
  else Ok VUndefined.

(** What a transport hands over as [err]: nothing ([undefined] or [null],
    which is what [request] passes on completion) or an error, an object or
    a text such as [ECONNREFUSED], which is truthy.  On these values the two
    tests of the normalizer, [!err] and [err != undefined], agree. *)
Definition transport_error (e : value) : bool :=
  negb (neq_undefined e) || truthy e.

(** ** Properties *)

(** *** The language fragment *)

Lemma get_Ok_defined v p x : get v p = Ok x -> neq_undefined v = true.
Proof. destruct v; simpl; congruence. Qed.

Lemma get_defined v p : neq_undefined v = true -> ∃ x, get v p = Ok x.
Proof. destruct v; simpl; try congruence; eauto. Qed.

Lemma truthy_defined v : truthy v = true -> neq_undefined v = true.
Proof. destruct v; simpl; congruence. Qed.

(** After line 205 the response can be read: [res.statusCode] and
    [res.statusMessage] raise nothing. *)
Lemma get_response res p :
  ∃ x, get (if neq_undefined res then res else VObj ∅) p = Ok x.
Proof.
  destruct (neq_undefined res) eqn:Hres.
  - by apply get_defined.
  - simpl. eauto.
Qed.

Lemma get_absent_response res p :
  neq_undefined res = false ->
  get (if neq_undefined res then res else VObj ∅) p = Ok VUndefined.
Proof. intros ->. simpl. by rewrite lookup_empty. Qed.

Lemma append_assoc (s1 s2 s3 : string) :
  (s1 +:+ s2) +:+ s3 = s1 +:+ s2 +:+ s3.
Proof.
  induction s1 as [|a s1 IH]; [done|].
  change (String a ((s1 +:+ s2) +:+ s3) = String a (s1 +:+ s2 +:+ s3)).
  by rewrite IH.
Qed.

(** What the template literal of line 191 builds, followed by anything, is
    the URL the specification writes. *)
Lemma base_append (C : configuration) (suffix : string) :
  Address.fa (_getFullAddress C) +:+ suffix = spec_url C suffix.
Proof.
  unfold _getFullAddress, spec_url. cbv zeta. simpl.
  rewrite (append_assoc "https://"). f_equal.
  rewrite (append_assoc (server C)). f_equal.
  rewrite (append_assoc ":"). f_equal.
  by rewrite (append_assoc (NumberToString (port C))).
Qed.

(** *** The normalizer, path by path *)

Lemma normalizer_inlines_results_of e res body :
  _parseRequestResults e res body =
    (let res := if neq_undefined res then res else VObj ∅ in
     success ←
       (if negb (truthy e)
        then statusCode ← get res "statusCode"; loose_eq_number statusCode 200
        else Ok false);
     if (success : bool) then
       results ← results_of body;
       statusCode ← get res "statusCode";
       statusMessage ← get res "statusMessage";
       Ok {| err := VUndefined;
             results := results;
             status := {| code := statusCode; message := statusMessage |} |}
     else
       statusCode ← get res "statusCode";
       statusMessage ← get res "statusMessage";
       Ok {| err := (if neq_undefined e then e else body);
             results := VUndefined;
             status := {| code := statusCode; message := statusMessage |} |}).
Proof.
  unfold _parseRequestResults, results_of. cbv zeta.
  destruct (if negb (truthy e) then _ else _) as [[]|]; simpl; [|done..].
  by destruct (if neq_undefined body then get body _ ≫= _ else _) as [[]|].
Qed.

(** The success path: no truthy error and a status code that [==] 200. *)
Lemma normalizer_success e res body :
  truthy e = false ->
  status_is_200 res = Ok true ->
  ∃ sc msg,
    get (if neq_undefined res then res else VObj ∅) "statusCode" = Ok sc
    ∧ get (if neq_undefined res then res else VObj ∅) "statusMessage" = Ok msg
    ∧ _parseRequestResults e res body =
        (results ← results_of body;
         Ok {| err := VUndefined;
               results := results;
               status := {| code := sc; message := msg |} |}).
Proof.
  intros He H200.
  destruct (get_response res "statusCode") as [sc Hsc].
  destruct (get_response res "statusMessage") as [msg Hmsg].
  exists sc, msg. split_and!; [done..|].
  rewrite normalizer_inlines_results_of. cbv zeta.
  unfold status_is_200 in H200. rewrite Hsc in H200. simpl in H200.
  rewrite He, Hsc, Hmsg. simpl. rewrite H200. simpl.
  by destruct (results_of body).
Qed.

(** The failure path: a truthy error, or a status code that does not [==]
    200. *)
Lemma normalizer_failure e res body :
  truthy e = true ∨ status_is_200 res = Ok false ->
  ∃ sc msg,
    get (if neq_undefined res then res else VObj ∅) "statusCode" = Ok sc
    ∧ get (if neq_undefined res then res else VObj ∅) "statusMessage" = Ok msg
    ∧ _parseRequestResults e res body =
        Ok {| err := (if neq_undefined e then e else body);
              results := VUndefined;
              status := {| code := sc; message := msg |} |}.
Proof.
  intros Hfail.
  destruct (get_response res "statusCode") as [sc Hsc].
  destruct (get_response res "statusMessage") as [msg Hmsg].
  exists sc, msg. split_and!; [done..|].
  rewrite normalizer_inlines_results_of. cbv zeta.
  rewrite Hsc, Hmsg. simpl.
  destruct (truthy e) eqn:He; simpl; [done|].
  destruct Hfail as [|H200]; [done|].
  unfold status_is_200 in H200. rewrite Hsc in H200. simpl in H200.
  by rewrite H200.
Qed.

(** The two paths are the only ones on which an envelope is produced. *)
Lemma normalizer_Ok_paths e res body env :
  _parseRequestResults e res body = Ok env ->
  (truthy e = false ∧ status_is_200 res = Ok true)
  ∨ (truthy e = true ∨ status_is_200 res = Ok false).
Proof.
  rewrite normalizer_inlines_results_of. cbv zeta. unfold status_is_200.
  destruct (truthy e); simpl; [auto|].
  destruct (get _ "statusCode") as [sc|]; simpl; [|done].
  destruct (loose_eq_number sc 200) as [[]|]; simpl; [auto..|done].
Qed.

Lemma loose_eq_number_raises v k er :
  loose_eq_number v k = Throw er -> ∃ w, ToNumber_host w = Throw er.
Proof.
  destruct v; simpl; try done;
    (destruct (ToNumber_host _) eqn:Hhost; simpl; [done|];
     intros [= ->]; eauto).
Qed.

Lemma results_of_raises body er :
  results_of body = Throw er -> ∃ w, ToNumber_host w = Throw er.
Proof.
  unfold results_of.
  destruct (neq_undefined body) eqn:Hbody; [|done].
  destruct (get_defined body "results" Hbody) as [r ->]. simpl.
  destruct (truthy r) eqn:Hr; [|done].
  destruct (get_defined r "length" (truthy_defined r Hr)) as [n ->]. simpl.
  destruct (loose_eq_number n 0) eqn:Hn; simpl; [done|].
  intros [= ->]. by eapply loose_eq_number_raises.
Qed.

(** The normalizer raises nothing of its own: when no envelope is produced,
    a conversion of the host has raised inside [==]. *)
Lemma normalizer_raises_only_with_host e res body er :
  _parseRequestResults e res body = Throw er ->
  ∃ w, ToNumber_host w = Throw er.
Proof.
  rewrite normalizer_inlines_results_of. cbv zeta.
  destruct (get_response res "statusCode") as [sc ->].
  destruct (get_response res "statusMessage") as [msg ->]. simpl.
  destruct (truthy e); simpl; [done|].
  destruct (loose_eq_number sc 200) as [[]|] eqn:H200; simpl; [|done|].
  - destruct (results_of body) eqn:Hresults; simpl; [done|].
    intros [= ->]. by eapply results_of_raises.
  - intros [= ->]. by eapply loose_eq_number_raises.
Qed.

(** An array is query-shaped: [null] when empty, itself otherwise. *)
Lemma results_of_list fields l :
  fields !! "results" = Some (VArr l) ->
  results_of (VObj fields) =
    Ok (match l with [] => VNull | _ :: _ => VArr l end).
Proof.
  intros Hl. unfold results_of. simpl. rewrite Hl. simpl.
  by destruct l.
Qed.

(** A falsy [body.results] is no [results] at all: the body is returned. *)
Lemma results_of_falsy body r :
  get body "results" = Ok r -> truthy r = false -> results_of body = Ok body.
Proof.
  intros Hr Hfalsy. unfold results_of.
  rewrite (get_Ok_defined _ _ _ Hr), Hr. simpl. by rewrite Hfalsy.
Qed.

(** *** The operations *)

(** [setOptions] replaces the configuration reference, whatever it is given,
    and [getOptions] reads it back: no merge, no default. *)
Lemma getOptions_setOptions this r : getOptions (setOptions this r) = r.
Proof. done. Qed.

(** Only the constructor falls back on [defaultOptions]: after
    [setOptions(undefined)] or [setOptions(null)] an operation finds nothing
    to read its address from. *)
Lemma query_without_options h this r q :
  r = RUndefined ∨ r = RNull ->
  query h (setOptions this r) q = Throw TypeError.
Proof. by intros [-> | ->]. Qed.

Lemma dispatch_not_create h this C inv :
  deref h (options this) = Ok C ->
  is_create inv = false ->
  ∃ call, dispatch h this inv = Ok call
    ∧ opts call = _constructServerPostRequest C (payload inv).
Proof.
  intros HC Hinv.
  destruct inv; try done; simpl;
    unfold query, invoke, update, read, remove, removeBulk;
    rewrite HC; simpl; eauto.
Qed.

Lemma create_ignores_object h this data object object' :
  create h this data object = create h this data object'.
Proof.
  unfold create, lookup_identifier.
  rewrite !lookup_insert_ne by done.
  by rewrite !lookup_singleton_ne by done.
Qed.

(** *** The properties the specification states *)

(** C1 (what the code does instead).  The specification has [create] post to
    [<base>/Create/<objectName>].  The body of [create] never reads its
    [object] parameter: it reads [orionObject], which nothing binds.  On a
    client with a configuration object, and with no global of that name,
    every call of [create] raises [ReferenceError] to the caller and sends no
    request, whatever the data and the object name; in particular it does
    not send the request the specification describes. *)
Theorem create_raises_ReferenceError h this C data object :
  deref h (options this) = Ok C ->
  global_object !! "orionObject" = None ->
  create h this data object = Throw (ReferenceError "orionObject")
  ∧ perform h this (Create data object)
      = ThrownToCaller (ReferenceError "orionObject")
  ∧ dispatch h this (Create data object)
      ≠ Ok {| method := spec_method (Create data object);
              url := spec_url C (spec_path (Create data object));
              opts := _constructServerPostRequest C data |}.
Proof.
  intros HC Hglobal.
  assert (create h this data object = Throw (ReferenceError "orionObject"))
    as Hcreate.
  { unfold create, lookup_identifier. rewrite HC. simpl.
    rewrite lookup_insert_ne by done. rewrite lookup_singleton_ne by done.
    by rewrite Hglobal. }
  split_and!; [done|..].
  - unfold perform. simpl. by rewrite Hcreate.
  - simpl. by rewrite Hcreate.
Qed.

(** C2 (amended).  For [query], [invoke], [update], [read], [remove] and
    [removeBulk] on a client whose configuration is an object, no error is
    raised to the caller: the operation hands one request to the transport;
    and when the transport completes it with a truthy error, or with a status
    code that is not 200, the callback receives an envelope whose [err] is
    that error (unless it is [undefined] or [null], then the body) and whose
    [results] is [undefined]. *)
Theorem operations_raise_nothing_synchronously h this l C inv :
  options this = RObject l ->
  h !! l = Some C ->
  is_create inv = false ->
  ∃ call,
    dispatch h this inv = Ok call
    ∧ (∀ er, perform h this inv ≠ ThrownToCaller er)
    ∧ (∀ e res body,
         transport call = (e, res, body) ->
         truthy e = true ∨ status_is_200 res = Ok false ->
         ∃ env,
           perform h this inv = CalledBack env
           ∧ err env = (if neq_undefined e then e else body)
           ∧ results env = VUndefined).
Proof.
  intros Hthis Hl Hinv.
  assert (deref h (options this) = Ok C) as HC.
  { rewrite Hthis. simpl. by rewrite Hl. }
  destruct (dispatch_not_create h this C inv HC Hinv) as (call & Hcall & _).
  exists call. split_and!; [done|..].
  - intros er. unfold perform. rewrite Hcall.
    destruct (transport call) as [[e res] body].
    by destruct (_parseRequestResults e res body).
  - intros e res body Htransport Hfail.
    destruct (normalizer_failure e res body Hfail) as (sc & msg & _ & _ & Hn).
    eexists. unfold perform. rewrite Hcall, Htransport, Hn. done.
Qed.

(** C3.  For every configuration [C] the address builder yields the five
    URLs [https://<server>:<port>/SolarWinds/InformationService/v3/Json/]
    followed by: nothing ([fa], the base of read, update and remove),
    [Query], [Create/], [Invoke/] and [BulkDelete]. *)
Theorem getFullAddress_urls (C : configuration) :
  _getFullAddress C =
    {| Address.fa := spec_url C "";
       Address.q := spec_url C "Query";
       Address.c := spec_url C "Create/";
       Address.i := spec_url C "Invoke/";
       Address.bd := spec_url C "BulkDelete" |}
  ∧ _gfa C = _getFullAddress C.
Proof.
  split; [|done].
  rewrite <- !base_append. unfold _getFullAddress. cbv zeta. simpl.
  f_equal.
  generalize ("https://" +:+ server C +:+ ":" +:+ NumberToString (port C)
                +:+ "/SolarWinds/InformationService/v3/Json/").
  intros s. induction s as [|a s IH]; [done|].
  change (String a s = String a (s +:+ "")). by rewrite <- IH.
Qed.

(** C4.  For every configuration [C] and payload [P] the request options
    builder returns exactly [json = P], [auth = C.auth] and
    [rejectUnauthorized = false]; and whichever operation issues a request,
    its options are those, built from the configuration in force and the
    payload of the operation. *)
Theorem request_options_uniform (C : configuration) (P : value) :
  _constructServerPostRequest C P =
    {| RequestOptions.json := P;
       RequestOptions.auth := auth C;
       RequestOptions.rejectUnauthorized := false |}
  ∧ _cspr C P = _constructServerPostRequest C P
  ∧ ∀ h this inv call,
      deref h (options this) = Ok C ->
      dispatch h this inv = Ok call ->
      opts call =
        {| RequestOptions.json := payload inv;
           RequestOptions.auth := auth C;
           RequestOptions.rejectUnauthorized := false |}.
Proof.
  split_and!; [done..|].
  intros h this inv call HC.
  destruct inv; simpl;
    unfold query, invoke, update, read, remove, removeBulk, create;
    rewrite HC; simpl; try (by intros [= <-]).
  destruct (lookup_identifier _ _) as [v|]; simpl; [|done].
  destruct (string_plus _ v); simpl; [|done]. by intros [= <-].
Qed.

(** C5.  An envelope produced by the normalizer never has both [err] and
    [results] defined: on the success path (no truthy error, status code
    200) [err] is [undefined], on the failure path [results] is [undefined].
    And the normalizer does produce an envelope, unless a conversion of the
    host raises inside [==]. *)
Theorem envelope_err_results_exclusive e res body :
  (∀ env,
     _parseRequestResults e res body = Ok env ->
     (err env = VUndefined ∨ results env = VUndefined)
     ∧ (truthy e = false ∧ status_is_200 res = Ok true ->
        err env = VUndefined)
     ∧ (truthy e = true ∨ status_is_200 res = Ok false ->
        results env = VUndefined))
  ∧ (∀ er,
       _parseRequestResults e res body = Throw er ->
       ∃ w, ToNumber_host w = Throw er).
Proof.
  split; [|apply normalizer_raises_only_with_host].
  intros env Henv.
  assert (truthy e = false ∧ status_is_200 res = Ok true ->
          err env = VUndefined) as Hsuccess.
  { intros [He H200].
    destruct (normalizer_success e res body He H200) as (sc & msg & _ & _ & Hn).
    rewrite Hn in Henv. destruct (results_of body); simpl in Henv; [|done].
    by injection Henv as <-. }
  assert (truthy e = true ∨ status_is_200 res = Ok false ->
          results env = VUndefined) as Hfailure.
  { intros Hfail.
    destruct (normalizer_failure e res body Hfail) as (sc & msg & _ & _ & Hn).
    rewrite Hn in Henv. by injection Henv as <-. }
  split_and!; [|done..].
  destruct (normalizer_Ok_paths e res body env Henv); auto.
Qed.

(** C6.  With no truthy transport error and a response whose status code is
    200, a body whose [results] field is a list gives [results = null] when
    the list is empty and the list itself otherwise, with [err = undefined]
    and the status code and message of the response. *)
Theorem query_shaped_success e res body sc msg fields l :
  truthy e = false ->
  get res "statusCode" = Ok sc ->
  loose_eq_number sc 200 = Ok true ->
  get res "statusMessage" = Ok msg ->
  body = VObj fields ->
  fields !! "results" = Some (VArr l) ->
  _parseRequestResults e res body =
    Ok {| err := VUndefined;
          results := match l with [] => VNull | _ :: _ => VArr l end;
          status := {| code := sc; message := msg |} |}.
Proof.
  intros He Hsc H200 Hmsg -> Hl.
  pose proof (get_Ok_defined _ _ _ Hsc) as Hres.
  assert (status_is_200 res = Ok true) as Hstatus.
  { unfold status_is_200. rewrite Hres, Hsc. done. }
  destruct (normalizer_success e res (VObj fields) He Hstatus)
    as (sc' & msg' & Hsc' & Hmsg' & ->).
  rewrite Hres in Hsc', Hmsg'.
  rewrite Hsc in Hsc'. rewrite Hmsg in Hmsg'.
  injection Hsc' as <-. injection Hmsg' as <-.
  by rewrite (results_of_list fields l Hl).
Qed.

(** C7.  For every transport error, response and body where a transport
    error is present or the status code is not 200, the normalizer produces
    an envelope with [err] equal to the transport error when one is present
    and to the raw body otherwise, and with [results = undefined].  A
    transport error is present when [err] is not [undefined] or [null],
    which for what a transport delivers is the same as [err] being truthy. *)
Theorem failure_path_envelope e res body :
  transport_error e = true ->
  neq_undefined e = true ∨ status_is_200 res = Ok false ->
  truthy e = neq_undefined e
  ∧ ∃ env,
      _parseRequestResults e res body = Ok env
      ∧ err env = (if neq_undefined e then e else body)
      ∧ results env = VUndefined.
Proof.
  intros He Hfail.
  assert (truthy e = neq_undefined e) as Hagree.
  { unfold transport_error in He.
    destruct (neq_undefined e) eqn:Hdefined; simpl in He; [done|].
    by destruct e. }
  split; [done|].
  assert (truthy e = true ∨ status_is_200 res = Ok false) as Hpath.
  { destruct Hfail as [Hpresent|H200]; [left|by right]. by rewrite Hagree. }
  destruct (normalizer_failure e res body Hpath) as (sc & msg & _ & _ & ->).
  eauto.
Qed.

(** C8.  A transport error that comes with no response object ([res]
    undefined or null) gives an envelope whose [err] is that error, whose
    [results] is [undefined] and whose status has [code] and [message]
    undefined. *)
Theorem transport_failure_without_response e res body :
  neq_undefined e = true ->
  neq_undefined res = false ->
  _parseRequestResults e res body =
    Ok {| err := e;
          results := VUndefined;
          status := {| code := VUndefined; message := VUndefined |} |}.
Proof.
  intros He Hres.
  assert (status_is_200 res = Ok false) as Hstatus.
  { unfold status_is_200. by rewrite (get_absent_response res _ Hres). }
  destruct (normalizer_failure e res body (or_intror Hstatus))
    as (sc & msg & Hsc & Hmsg & ->).
  rewrite (get_absent_response res _ Hres) in Hsc.
  rewrite (get_absent_response res _ Hres) in Hmsg.
  injection Hsc as <-. injection Hmsg as <-. by rewrite He.
Qed.

(** C9.  A client constructed with no options holds a reference to the
    module-level [defaultOptions] object, whose content is server
    127.0.0.1, port 17778, user admin with an empty password; all such
    clients hold the same reference, so what is written to that object
    through one of them is what every other one reads and uses. *)
Theorem default_options_shared :
  getOptions (init RUndefined) = RObject defaultOptions
  ∧ options (Orion RUndefined) = RObject defaultOptions
  ∧ deref module_heap (getOptions (init RUndefined)) =
      Ok {| server := "127.0.0.1";
            port := 17778;
            auth := {| username := "admin"; password := "" |} |}
  ∧ ∀ (h : gmap loc configuration) (l : loc) (C' : configuration)
      (q : value),
      getOptions (init RUndefined) = RObject l ->
      deref (<[l := C']> h) (options (Orion RUndefined)) = Ok C'
      ∧ query (<[l := C']> h) (Orion RUndefined) q =
          Ok {| method := POST;
                url := spec_url C' "Query";
                opts := _cspr C' q |}.
Proof.
  split_and!; [done..|].
  intros h l C' q [= <-].
  assert (deref (<[defaultOptions := C']> h) (options (Orion RUndefined))
          = Ok C') as HC.
  { simpl. by rewrite lookup_insert_eq. }
  split; [done|]. unfold query. rewrite HC. simpl.
  by rewrite <- base_append.
Qed.

(** C10.  On the success path, a body that has a [results] field whose value
    is falsy ([null], [0], the empty string, ...) is returned whole as the
    envelope's [results]; in particular [results] is not [null]. *)
Theorem falsy_results_returns_body e res body fields r :
  truthy e = false ->
  status_is_200 res = Ok true ->
  body = VObj fields ->
  fields !! "results" = Some r ->
  truthy r = false ->
  ∃ env,
    _parseRequestResults e res body = Ok env
    ∧ results env = body
    ∧ results env ≠ VNull
    ∧ err env = VUndefined.
Proof.
  intros He H200 -> Hr Hfalsy.
  destruct (normalizer_success e res (VObj fields) He H200)
    as (sc & msg & _ & _ & ->).
  rewrite (results_of_falsy (VObj fields) r); [|by simpl; rewrite Hr|done].
  eexists. split_and!; done.
Qed.

(** *** Further properties of the specification *)

(** X1.  On a client whose configuration is an object [C], each of [query],
    [invoke], [update], [read], [remove] and [removeBulk] issues exactly the
    request that section 4.1 lists: its method, the URL of [C] followed by
    its path, and the options built from [C] and its payload. *)
Theorem operations_issue_spec_requests h this C inv :
  deref h (options this) = Ok C ->
  is_create inv = false ->
  dispatch h this inv =
    Ok {| method := spec_method inv;
          url := spec_url C (spec_path inv);
          opts := _constructServerPostRequest C (payload inv) |}.
Proof.
  intros HC Hinv.
  destruct inv; try done; simpl;
    unfold query, invoke, update, read, remove, removeBulk;
    rewrite HC; simpl; do 2 f_equal;
    rewrite <- base_append; try done.
  by rewrite append_assoc.
Qed.

(** X2.  On the success path a body with no truthy [results] is returned
    verbatim as the envelope's [results] (a body without that field, a
    body that is not an object), and an absent body gives
    [results = undefined]. *)
Theorem success_body_verbatim e res body :
  truthy e = false ->
  status_is_200 res = Ok true ->
  (neq_undefined body = false
   ∨ ∃ r, get body "results" = Ok r ∧ truthy r = false) ->
  ∃ env,
    _parseRequestResults e res body = Ok env
    ∧ err env = VUndefined
    ∧ results env = (if neq_undefined body then body else VUndefined).
Proof.
  intros He H200 Hbody.
  destruct (normalizer_success e res body He H200)
    as (sc & msg & _ & _ & ->).
  assert (results_of body = Ok (if neq_undefined body then body else VUndefined))
    as ->.
  { destruct Hbody as [Habsent|(r & Hr & Hfalsy)].
    - unfold results_of. by rewrite Habsent.
    - rewrite (get_Ok_defined _ _ _ Hr). by eapply results_of_falsy. }
  eexists. split_and!; done.
Qed.

(** X3.  In every envelope the status is the [statusCode] and
    [statusMessage] of the response, both [undefined] when there was no
    response. *)
Theorem status_from_response e res body env :
  _parseRequestResults e res body = Ok env ->
  get (if neq_undefined res then res else VObj ∅) "statusCode"
    = Ok (code (status env))
  ∧ get (if neq_undefined res then res else VObj ∅) "statusMessage"
    = Ok (message (status env))
  ∧ (neq_undefined res = false ->
     status env = {| code := VUndefined; message := VUndefined |}).
Proof.
  intros Henv.
  assert (∃ sc msg,
    get (if neq_undefined res then res else VObj ∅) "statusCode" = Ok sc
    ∧ get (if neq_undefined res then res else VObj ∅) "statusMessage" = Ok msg
    ∧ status env = {| code := sc; message := msg |})
    as (sc & msg & Hsc & Hmsg & Hstatus).
  { destruct (normalizer_Ok_paths e res body env Henv) as [[He H200]|Hfail].
    - destruct (normalizer_success e res body He H200)
        as (sc & msg & Hsc & Hmsg & Hn).
      exists sc, msg. split_and!; [done..|].
      rewrite Hn in Henv. destruct (results_of body); simpl in Henv; [|done].
      by injection Henv as <-.
    - destruct (normalizer_failure e res body Hfail)
        as (sc & msg & Hsc & Hmsg & Hn).
      exists sc, msg. split_and!; [done..|].
      rewrite Hn in Henv. by injection Henv as <-. }
  rewrite Hstatus. simpl. split_and!; [done..|].
  intros Hres.
  rewrite (get_absent_response res _ Hres) in Hsc.
  rewrite (get_absent_response res _ Hres) in Hmsg.
  by injection Hsc as <-; injection Hmsg as <-.
Qed.

(** *** Properties read off the code *)

Lemma loose_eq_number_scalar v k :
  scalar v = true -> ∃ b, loose_eq_number v k = Ok b.
Proof. destruct v; simpl; try done; eauto. Qed.

Lemma results_of_plain body :
  (∀ r n, get body "results" = Ok r -> get r "length" = Ok n ->
     scalar n = true) ->
  ∃ v, results_of body = Ok v.
Proof.
  intros Hplain. unfold results_of.
  destruct (neq_undefined body) eqn:Hbody; [|simpl; eauto].
  destruct (get_defined body "results" Hbody) as [r Hr]. rewrite Hr. simpl.
  destruct (truthy r) eqn:Htruthy; [|eauto].
  destruct (get_defined r "length" (truthy_defined r Htruthy)) as [n Hn].
  rewrite Hn. simpl.
  destruct (loose_eq_number_scalar n 0 (Hplain r n Hr Hn)) as [b ->].
  simpl. eauto.
Qed.

Lemma dispatch_reads_deref h h' this inv :
  deref h (options this) = deref h' (options this) ->
  dispatch h this inv = dispatch h' this inv.
Proof.
  intros Hderef.
  destruct inv; simpl;
    unfold query, invoke, update, read, remove, removeBulk, create;
    by rewrite Hderef.
Qed.

(** X4.  On a client whose configuration is [undefined] or [null], every one
    of the seven operations raises a TypeError to its caller and hands
    nothing to the transport; for [create] this TypeError comes before the
    ReferenceError.  ([setOptions(undefined)] leaves such a client: only the
    constructor falls back on the defaults.) *)
Theorem operations_without_configuration_raise h this inv :
  options this = RUndefined ∨ options this = RNull ->
  dispatch h this inv = Throw TypeError
  ∧ perform h this inv = ThrownToCaller TypeError.
Proof.
  intros Hoptions.
  assert (deref h (options this) = Throw TypeError) as Hderef.
  { by destruct Hoptions as [-> | ->]. }
  assert (dispatch h this inv = Throw TypeError) as Hdispatch.
  { destruct inv; simpl;
      unfold query, invoke, update, read, remove, removeBulk, create;
      by rewrite Hderef. }
  split; [done|]. unfold perform. by rewrite Hdispatch.
Qed.

(** X5.  When a caller's test [if (envelope.err)] fires: exactly when the
    transport error is truthy, or the status code is not 200, the transport
    error is [undefined] or [null] and the body is truthy.  So a response
    other than 200 with an empty (falsy) body reaches the callback with a
    falsy [err]. *)
Theorem envelope_err_truthy_iff e res body env :
  _parseRequestResults e res body = Ok env ->
  (truthy (err env) = true ↔
     truthy e = true
     ∨ (status_is_200 res = Ok false
        ∧ neq_undefined e = false
        ∧ truthy body = true)).
Proof.
  intros Henv.
  destruct (normalizer_Ok_paths e res body env Henv) as [[He H200]|Hfail].
  - destruct (normalizer_success e res body He H200)
      as (sc & msg & _ & _ & Hn).
    rewrite Hn in Henv. destruct (results_of body); simpl in Henv; [|done].
    injection Henv as <-. simpl.
    split; [done|]. intros [?|(? & _)]; congruence.
  - destruct (normalizer_failure e res body Hfail)
      as (sc & msg & _ & _ & Hn).
    rewrite Hn in Henv. injection Henv as <-. simpl.
    destruct (neq_undefined e) eqn:Hdefined.
    + split; [auto|]. intros [?|(_ & ? & _)]; [done|congruence].
    + assert (truthy e = false) as He by (by destruct e).
      destruct Hfail as [?|H200]; [congruence|].
      split; [auto|]. intros [?|(_ & _ & ?)]; [congruence|done].
Qed.

(** X6.  The envelope's [results] is [null] exactly on the success path with
    a truthy [body.results] whose [length] is [== 0] (an empty list): an
    absent body, a [null] body and a failure all give [undefined], never
    [null]. *)
Theorem results_null_iff_empty e res body env :
  _parseRequestResults e res body = Ok env ->
  (results env = VNull ↔
     truthy e = false
     ∧ status_is_200 res = Ok true
     ∧ ∃ r n,
         get body "results" = Ok r
         ∧ truthy r = true
         ∧ get r "length" = Ok n
         ∧ loose_eq_number n 0 = Ok true).
Proof.
  intros Henv.
  destruct (normalizer_Ok_paths e res body env Henv) as [[He H200]|Hfail].
  - destruct (normalizer_success e res body He H200)
      as (sc & msg & _ & _ & Hn).
    rewrite Hn in Henv. clear Hn.
    destruct (results_of body) as [v|] eqn:Hresults; simpl in Henv; [|done].
    injection Henv as <-. simpl.
    unfold results_of in Hresults.
    destruct (neq_undefined body) eqn:Hbody.
    + destruct (get_defined body "results" Hbody) as [r Hr].
      rewrite Hr in Hresults. simpl in Hresults.
      destruct (truthy r) eqn:Htruthy.
      * destruct (get_defined r "length" (truthy_defined r Htruthy))
          as [n Hlen].
        rewrite Hlen in Hresults. simpl in Hresults.
        destruct (loose_eq_number n 0) as [[]|] eqn:Hzero;
          simpl in Hresults; [| |done]; injection Hresults as <-.
        -- split; [|done]. intros _. split_and!; [done..|].
           exists r, n. done.
        -- split.
           ++ intros ->. done.
           ++ intros (_ & _ & r' & n' & Hr' & _ & Hlen' & Hzero').
              rewrite Hr in Hr'. injection Hr' as <-.
              rewrite Hlen in Hlen'. injection Hlen' as <-. congruence.
      * injection Hresults as <-. split.
        -- intros ->. done.
        -- intros (_ & _ & r' & n' & Hr' & Htruthy' & _).
           rewrite Hr in Hr'. injection Hr' as <-. congruence.
    + simpl in Hresults. injection Hresults as <-. split; [done|].
      intros (_ & _ & r & n & Hr & _).
      by rewrite (get_Ok_defined _ _ _ Hr) in Hbody.
  - destruct (normalizer_failure e res body Hfail)
      as (sc & msg & _ & _ & Hn).
    rewrite Hn in Henv. injection Henv as <-. simpl.
    split; [done|]. intros (He & H200 & _).
    destruct Hfail; congruence.
Qed.

(** X7.  Of the response the normalizer reads [statusCode] and
    [statusMessage] and nothing else: two responses that agree on these
    give the same envelope, whatever else they carry; and no response,
    [null] and [{}] are one case. *)
Theorem normalizer_reads_only_status e res res' body :
  get (if neq_undefined res then res else VObj ∅) "statusCode"
    = get (if neq_undefined res' then res' else VObj ∅) "statusCode" ->
  get (if neq_undefined res then res else VObj ∅) "statusMessage"
    = get (if neq_undefined res' then res' else VObj ∅) "statusMessage" ->
  _parseRequestResults e res body = _parseRequestResults e res' body.
Proof.
  intros Hcode Hmessage.
  rewrite !normalizer_inlines_results_of. cbv zeta.
  by rewrite Hcode, Hmessage.
Qed.

(** X8.  The normalizer raises nothing, whatever the host, when the status
    code is a number (or a boolean, or absent) and the [length] of
    [body.results], if there is one, is too: for every response of an HTTP
    transport whose body carries a list, a string, a scalar or an object
    without an odd [length], the callback is called. *)
Theorem normalizer_returns_on_plain_responses e res body :
  (∀ sc, get (if neq_undefined res then res else VObj ∅) "statusCode" = Ok sc ->
     scalar sc = true) ->
  (∀ r n, get body "results" = Ok r -> get r "length" = Ok n ->
     scalar n = true) ->
  ∃ env, _parseRequestResults e res body = Ok env.
Proof.
  intros Hcode Hbody.
  rewrite normalizer_inlines_results_of. cbv zeta.
  destruct (get_response res "statusCode") as [sc Hsc].
  destruct (get_response res "statusMessage") as [msg Hmsg].
  rewrite Hsc, Hmsg. simpl.
  destruct (truthy e); simpl; [eauto|].
  destruct (loose_eq_number_scalar sc 200 (Hcode sc Hsc)) as [b ->]. simpl.
  destruct b; [|eauto].
  destruct (results_of_plain body Hbody) as [v ->]. simpl. eauto.
Qed.

(** X9.  An operation reads the configuration object its client refers to
    and no other: writing to a different object, the shared
    [defaultOptions] for instance, changes nothing for a client that was
    given a configuration object of its own. *)
Theorem operations_ignore_other_configurations h this l l' C' inv :
  options this = RObject l ->
  l ≠ l' ->
  dispatch (<[l' := C']> h) this inv = dispatch h this inv
  ∧ perform (<[l' := C']> h) this inv = perform h this inv.
Proof.
  intros Hthis Hne.
  assert (dispatch (<[l' := C']> h) this inv = dispatch h this inv)
    as Hdispatch.
  { apply dispatch_reads_deref. rewrite Hthis. simpl.
    by rewrite lookup_insert_ne. }
  split; [done|]. unfold perform. by rewrite Hdispatch.
Qed.

(** X10.  Where [create] posts is decided by a global variable: when the
    global object has a string property [orionObject], [create] posts the
    data to [<base>/Create/<that string>]; its [object] parameter has no
    influence on the outcome in any case. *)
Theorem create_posts_to_the_global h this C data object s :
  deref h (options this) = Ok C ->
  global_object !! "orionObject" = Some (VStr s) ->
  create h this data object =
    Ok {| method := POST;
          url := spec_url C ("Create/" +:+ s);
          opts := _constructServerPostRequest C data |}
  ∧ ∀ object', create h this data object' = create h this data object.
Proof.
  intros HC Hglobal. split; [|intros; apply create_ignores_object].
  unfold create, lookup_identifier. rewrite HC. simpl.
  rewrite lookup_insert_ne by done. rewrite lookup_singleton_ne by done.
  rewrite Hglobal. simpl. do 2 f_equal.
  rewrite <- base_append. by rewrite append_assoc.
Qed.

(** X11.  Seen from the callback: an envelope whose [results] is defined has
    [err] undefined and a status code that is [== 200], and came with no
    truthy transport error. *)
Theorem defined_results_imply_success e res body env :
  _parseRequestResults e res body = Ok env ->
  results env ≠ VUndefined ->
  err env = VUndefined
  ∧ truthy e = false
  ∧ loose_eq_number (code (status env)) 200 = Ok true.
Proof.
  intros Henv Hdefined.
  destruct (normalizer_Ok_paths e res body env Henv) as [[He H200]|Hfail].
  - destruct (normalizer_success e res body He H200)
      as (sc & msg & Hsc & _ & Hn).
    rewrite Hn in Henv. destruct (results_of body); simpl in Henv; [|done].
    injection Henv as <-. simpl. split_and!; [done..|].
    unfold status_is_200 in H200. by rewrite Hsc in H200.
  - destruct (normalizer_failure e res body Hfail)
      as (sc & msg & _ & _ & Hn).
    rewrite Hn in Henv. injection Henv as <-. done.
Qed.

End Host.

(** ** The model at concrete inputs *)

(** The test vectors of the specification (section 8). *)

Example normalizer_empty_list :
  _parseRequestResults sample_ToNumber VUndefined
    (VObj {[ "statusCode" := VNum 200; "statusMessage" := VStr "OK" ]})
    (VObj {[ "results" := VArr [] ]})
  = Ok {| err := VUndefined;
          results := VNull;
          status := {| code := VNum 200; message := VStr "OK" |} |}.
Proof. reflexivity. Qed.

Example normalizer_one_row :
  _parseRequestResults sample_ToNumber VUndefined
    (VObj {[ "statusCode" := VNum 200; "statusMessage" := VStr "OK" ]})
    (VObj {[ "results" := VArr [VObj {[ "a" := VNum 1 ]}] ]})
  = Ok {| err := VUndefined;
          results := VArr [VObj {[ "a" := VNum 1 ]}];
          status := {| code := VNum 200; message := VStr "OK" |} |}.
Proof. reflexivity. Qed.

Example normalizer_body_verbatim :
  _parseRequestResults sample_ToNumber VUndefined
    (VObj {[ "statusCode" := VNum 200 ]})
    (VObj {[ "NodeID" := VNum 5 ]})
  = Ok {| err := VUndefined;
          results := VObj {[ "NodeID" := VNum 5 ]};
          status := {| code := VNum 200; message := VUndefined |} |}.
Proof. reflexivity. Qed.

Example normalizer_server_error :
  _parseRequestResults sample_ToNumber VUndefined
    (VObj {[ "statusCode" := VNum 500;
             "statusMessage" := VStr "Internal Server Error" ]})
    (VStr "boom")
  = Ok {| err := VStr "boom";
          results := VUndefined;
          status := {| code := VNum 500;
                       message := VStr "Internal Server Error" |} |}.
Proof. reflexivity. Qed.

Example removeBulk_two_uris :
  removeBulk module_heap (init RUndefined)
    (VArr [VStr "swis://a"; VStr "swis://b"])
  = Ok {| method := POST;
          url := "https://127.0.0.1:17778/SolarWinds/InformationService/v3/Json/BulkDelete";
          opts :=
            {| RequestOptions.json :=
                 VObj {[ "uris" := VArr [VStr "swis://a"; VStr "swis://b"] ]};
               RequestOptions.auth :=
                 {| username := "admin"; password := "" |};
               RequestOptions.rejectUnauthorized := false |} |}.
Proof. reflexivity. Qed.

Example default_addresses :
  _getFullAddress default_configuration
  = {| Address.fa := "https://127.0.0.1:17778/SolarWinds/InformationService/v3/Json/";
       Address.q := "https://127.0.0.1:17778/SolarWinds/InformationService/v3/Json/Query";
       Address.c := "https://127.0.0.1:17778/SolarWinds/InformationService/v3/Json/Create/";
       Address.i := "https://127.0.0.1:17778/SolarWinds/InformationService/v3/Json/Invoke/";
       Address.bd := "https://127.0.0.1:17778/SolarWinds/InformationService/v3/Json/BulkDelete" |}.
Proof. reflexivity. Qed.

(** C1 at a concrete call: [create({Caption: "lab"}, "Orion.Nodes", cb)] on
    a client built with no options. *)
Lemma create_raises_ReferenceError_witness :
  (deref module_heap (options (init RUndefined)) = Ok default_configuration
   ∧ sample_global_object !! "orionObject" = None)
  ∧ create sample_ToString sample_global_object module_heap
      (init RUndefined) (VObj {[ "Caption" := VStr "lab" ]}) "Orion.Nodes"
    = Throw (ReferenceError "orionObject")
  ∧ perform sample_ToNumber sample_ToString sample_global_object refused
      module_heap (init RUndefined)
      (Create (VObj {[ "Caption" := VStr "lab" ]}) "Orion.Nodes")
    = ThrownToCaller (ReferenceError "orionObject")
  ∧ dispatch sample_ToString sample_global_object module_heap
      (init RUndefined)
      (Create (VObj {[ "Caption" := VStr "lab" ]}) "Orion.Nodes")
    ≠ Ok {| method := POST;
            url := spec_url default_configuration "Create/Orion.Nodes";
            opts := _constructServerPostRequest default_configuration
                      (VObj {[ "Caption" := VStr "lab" ]}) |}.
Proof.
  split; [split; reflexivity|].
  apply (create_raises_ReferenceError sample_ToNumber sample_ToString
           sample_global_object refused module_heap (init RUndefined)
           default_configuration); reflexivity.
Defined.

(** Were a global of that name defined, [create] would post to it, still
    without a look at its [object] parameter. *)
Example create_reads_the_global :
  url <$> create sample_ToString {[ "orionObject" := VStr "Orion.Pollers" ]}
            module_heap (init RUndefined) (VObj ∅) "Orion.Nodes"
  = Ok "https://127.0.0.1:17778/SolarWinds/InformationService/v3/Json/Create/Orion.Pollers".
Proof. reflexivity. Qed.

(** C2 as stated fails: a client whose configuration is [null] ([init(null)]
    keeps it, the test being [options !== undefined]) raises a TypeError to
    the caller of [query]. *)
Lemma query_on_null_options_raises :
  query module_heap (init RNull)
    (VObj {[ "query" := VStr "SELECT NodeID FROM Orion.Nodes" ]})
  = Throw TypeError
  ∧ perform sample_ToNumber sample_ToString sample_global_object refused
      module_heap (init RNull)
      (Query (VObj {[ "query" := VStr "SELECT NodeID FROM Orion.Nodes" ]}))
    = ThrownToCaller TypeError.
Proof. split; reflexivity. Qed.

(** C2 (amended) at a concrete call: [query] on a client built with no
    options, the connection being refused. *)
Lemma operations_raise_nothing_synchronously_witness :
  (options (init RUndefined) = RObject defaultOptions
   ∧ module_heap !! defaultOptions = Some default_configuration
   ∧ is_create (Query (VObj {[ "query" := VStr "SELECT 1" ]})) = false)
  ∧ ∃ call,
      dispatch sample_ToString sample_global_object module_heap
        (init RUndefined) (Query (VObj {[ "query" := VStr "SELECT 1" ]}))
      = Ok call
      ∧ (∀ er,
           perform sample_ToNumber sample_ToString sample_global_object
             refused module_heap (init RUndefined)
             (Query (VObj {[ "query" := VStr "SELECT 1" ]}))
           ≠ ThrownToCaller er)
      ∧ (∀ e res body,
           refused call = (e, res, body) ->
           truthy e = true ∨ status_is_200 sample_ToNumber res = Ok false ->
           ∃ env,
             perform sample_ToNumber sample_ToString sample_global_object
               refused module_heap (init RUndefined)
               (Query (VObj {[ "query" := VStr "SELECT 1" ]}))
             = CalledBack env
             ∧ err env = (if neq_undefined e then e else body)
             ∧ results env = VUndefined).
Proof.
  split; [split_and!; reflexivity|].
  apply (operations_raise_nothing_synchronously sample_ToNumber
           sample_ToString sample_global_object refused module_heap
           (init RUndefined) defaultOptions default_configuration);
    reflexivity.
Defined.

(** C4 at a concrete call: [invoke] on a client built with no options. *)
Lemma request_options_uniform_witness :
  (deref module_heap (options (init RUndefined)) = Ok default_configuration
   ∧ dispatch sample_ToString sample_global_object module_heap
       (init RUndefined) (Invoke "Orion.Nodes/Unmanage" (VArr [VStr "N:1"]))
     = Ok {| method := POST;
             url := "https://127.0.0.1:17778/SolarWinds/InformationService/v3/Json/Invoke/Orion.Nodes/Unmanage";
             opts := _cspr default_configuration (VArr [VStr "N:1"]) |})
  ∧ opts {| method := POST;
            url := "https://127.0.0.1:17778/SolarWinds/InformationService/v3/Json/Invoke/Orion.Nodes/Unmanage";
            opts := _cspr default_configuration (VArr [VStr "N:1"]) |}
    = {| RequestOptions.json := VArr [VStr "N:1"];
         RequestOptions.auth := {| username := "admin"; password := "" |};
         RequestOptions.rejectUnauthorized := false |}.
Proof.
  split; [split; reflexivity|].
  apply (proj2 (proj2 (request_options_uniform sample_ToString
                         sample_global_object default_configuration VNull))
           module_heap (init RUndefined)
           (Invoke "Orion.Nodes/Unmanage" (VArr [VStr "N:1"])));
    reflexivity.
Defined.

(** C5 at a concrete triple: status 200 and an empty result list. *)
Lemma envelope_err_results_exclusive_witness :
  _parseRequestResults sample_ToNumber VUndefined
    (VObj {[ "statusCode" := VNum 200; "statusMessage" := VStr "OK" ]})
    (VObj {[ "results" := VArr [] ]})
  = Ok {| err := VUndefined;
          results := VNull;
          status := {| code := VNum 200; message := VStr "OK" |} |}
  ∧ (err {| err := VUndefined;
            results := VNull;
            status := {| code := VNum 200; message := VStr "OK" |} |}
       = VUndefined
     ∨ results {| err := VUndefined;
                  results := VNull;
                  status := {| code := VNum 200; message := VStr "OK" |} |}
       = VUndefined).
Proof.
  split; [reflexivity|].
  apply (proj1 (envelope_err_results_exclusive sample_ToNumber VUndefined
                  (VObj {[ "statusCode" := VNum 200;
                           "statusMessage" := VStr "OK" ]})
                  (VObj {[ "results" := VArr [] ]}))).
  reflexivity.
Defined.

(** C6 at the first test vector of the specification. *)
Lemma query_shaped_success_witness :
  (truthy VUndefined = false
   ∧ loose_eq_number sample_ToNumber (VNum 200) 200 = Ok true)
  ∧ _parseRequestResults sample_ToNumber VUndefined
      (VObj {[ "statusCode" := VNum 200; "statusMessage" := VStr "OK" ]})
      (VObj {[ "results" := VArr [] ]})
    = Ok {| err := VUndefined;
            results := VNull;
            status := {| code := VNum 200; message := VStr "OK" |} |}.
Proof.
  split; [split; reflexivity|].
  apply (query_shaped_success sample_ToNumber VUndefined
           (VObj {[ "statusCode" := VNum 200; "statusMessage" := VStr "OK" ]})
           (VObj {[ "results" := VArr [] ]}) (VNum 200) (VStr "OK")
           {[ "results" := VArr [] ]} []); reflexivity.
Defined.

(** C7 at a concrete triple: a refused connection. *)
Lemma failure_path_envelope_witness :
  (transport_error (VStr "ECONNREFUSED") = true
   ∧ (neq_undefined (VStr "ECONNREFUSED") = true
      ∨ status_is_200 sample_ToNumber VUndefined = Ok false))
  ∧ truthy (VStr "ECONNREFUSED") = neq_undefined (VStr "ECONNREFUSED")
  ∧ ∃ env,
      _parseRequestResults sample_ToNumber (VStr "ECONNREFUSED") VUndefined
        VUndefined = Ok env
      ∧ err env = VStr "ECONNREFUSED"
      ∧ results env = VUndefined.
Proof.
  split; [split; [reflexivity|left; reflexivity]|].
  apply (failure_path_envelope sample_ToNumber (VStr "ECONNREFUSED")
           VUndefined VUndefined); [reflexivity|left; reflexivity].
Defined.

(** C8 at the fourth test vector of the specification. *)
Lemma transport_failure_without_response_witness :
  (neq_undefined (VStr "ECONNREFUSED") = true
   ∧ neq_undefined VUndefined = false)
  ∧ _parseRequestResults sample_ToNumber (VStr "ECONNREFUSED") VUndefined
      VUndefined
    = Ok {| err := VStr "ECONNREFUSED";
            results := VUndefined;
            status := {| code := VUndefined; message := VUndefined |} |}.
Proof.
  split; [split; reflexivity|].
  apply (transport_failure_without_response sample_ToNumber
           (VStr "ECONNREFUSED") VUndefined VUndefined); reflexivity.
Defined.

(** C10 at a concrete triple: status 200 and the body [{results: null}]. *)
Lemma falsy_results_returns_body_witness :
  (truthy VNull = false
   ∧ status_is_200 sample_ToNumber (VObj {[ "statusCode" := VNum 200 ]})
     = Ok true)
  ∧ ∃ env,
      _parseRequestResults sample_ToNumber VNull
        (VObj {[ "statusCode" := VNum 200 ]})
        (VObj {[ "results" := VNull ]}) = Ok env
      ∧ results env = VObj {[ "results" := VNull ]}
      ∧ results env ≠ VNull
      ∧ err env = VUndefined.
Proof.
  split; [split; reflexivity|].
  apply (falsy_results_returns_body sample_ToNumber VNull
           (VObj {[ "statusCode" := VNum 200 ]})
           (VObj {[ "results" := VNull ]}) {[ "results" := VNull ]} VNull);
    reflexivity.
Defined.

(** X1 at a concrete call: [read] on a client built with no options. *)
Lemma operations_issue_spec_requests_witness :
  (deref module_heap (options (init RUndefined)) = Ok default_configuration
   ∧ is_create (Read "swis://host/Orion/Orion.Nodes/NodeID=1") = false)
  ∧ dispatch sample_ToString sample_global_object module_heap
      (init RUndefined) (Read "swis://host/Orion/Orion.Nodes/NodeID=1")
    = Ok {| method := GET;
            url := "https://127.0.0.1:17778/SolarWinds/InformationService/v3/Json/swis://host/Orion/Orion.Nodes/NodeID=1";
            opts := _constructServerPostRequest default_configuration
                      (VObj ∅) |}.
Proof.
  split; [split; reflexivity|].
  apply (operations_issue_spec_requests sample_ToString sample_global_object
           module_heap (init RUndefined) default_configuration
           (Read "swis://host/Orion/Orion.Nodes/NodeID=1")); reflexivity.
Defined.

(** X2 at the third test vector of the specification. *)
Lemma success_body_verbatim_witness :
  (truthy VUndefined = false
   ∧ status_is_200 sample_ToNumber (VObj {[ "statusCode" := VNum 200 ]})
     = Ok true
   ∧ get (VObj {[ "NodeID" := VNum 5 ]}) "results" = Ok VUndefined)
  ∧ ∃ env,
      _parseRequestResults sample_ToNumber VUndefined
        (VObj {[ "statusCode" := VNum 200 ]})
        (VObj {[ "NodeID" := VNum 5 ]}) = Ok env
      ∧ err env = VUndefined
      ∧ results env = VObj {[ "NodeID" := VNum 5 ]}.
Proof.
  split; [split_and!; reflexivity|].
  apply (success_body_verbatim sample_ToNumber VUndefined
           (VObj {[ "statusCode" := VNum 200 ]})
           (VObj {[ "NodeID" := VNum 5 ]})); [reflexivity..|].
  right. exists VUndefined. split; reflexivity.
Defined.

(** X3 at the fifth test vector of the specification. *)
Lemma status_from_response_witness :
  _parseRequestResults sample_ToNumber VUndefined
    (VObj {[ "statusCode" := VNum 500;
             "statusMessage" := VStr "Internal Server Error" ]})
    (VStr "boom")
  = Ok {| err := VStr "boom";
          results := VUndefined;
          status := {| code := VNum 500;
                       message := VStr "Internal Server Error" |} |}
  ∧ get (VObj {[ "statusCode" := VNum 500;
                 "statusMessage" := VStr "Internal Server Error" ]})
      "statusCode" = Ok (VNum 500)
  ∧ get (VObj {[ "statusCode" := VNum 500;
                 "statusMessage" := VStr "Internal Server Error" ]})
      "statusMessage" = Ok (VStr "Internal Server Error").
Proof.
  assert (_parseRequestResults sample_ToNumber VUndefined
            (VObj {[ "statusCode" := VNum 500;
                     "statusMessage" := VStr "Internal Server Error" ]})
            (VStr "boom")
          = Ok {| err := VStr "boom";
                  results := VUndefined;
                  status := {| code := VNum 500;
                               message := VStr "Internal Server Error" |} |})
    as Henv by reflexivity.
  split; [exact Henv|].
  destruct (status_from_response sample_ToNumber _ _ _ _ Henv)
    as (Hcode & Hmessage & _).
  split; [exact Hcode|exact Hmessage].
Defined.

(** X4 at a concrete call: [create] after [setOptions(undefined)]. *)
Lemma operations_without_configuration_raise_witness :
  (options (setOptions (init RUndefined) RUndefined) = RUndefined
   ∨ options (setOptions (init RUndefined) RUndefined) = RNull)
  ∧ dispatch sample_ToString sample_global_object module_heap
      (setOptions (init RUndefined) RUndefined)
      (Create (VObj ∅) "Orion.Nodes")
    = Throw TypeError
  ∧ perform sample_ToNumber sample_ToString sample_global_object refused
      module_heap (setOptions (init RUndefined) RUndefined)
      (Create (VObj ∅) "Orion.Nodes")
    = ThrownToCaller TypeError.
Proof.
  split; [left; reflexivity|].
  apply (operations_without_configuration_raise sample_ToNumber
           sample_ToString sample_global_object refused module_heap
           (setOptions (init RUndefined) RUndefined)
           (Create (VObj ∅) "Orion.Nodes")).
  left; reflexivity.
Defined.

(** X5 at a concrete triple: status 500 with an empty body and no error. *)
Lemma envelope_err_truthy_iff_witness :
  _parseRequestResults sample_ToNumber VNull
    (VObj {[ "statusCode" := VNum 500 ]}) (VStr "")
  = Ok {| err := VStr "";
          results := VUndefined;
          status := {| code := VNum 500; message := VUndefined |} |}
  ∧ (truthy (VStr "") = true ↔
       truthy VNull = true
       ∨ (status_is_200 sample_ToNumber (VObj {[ "statusCode" := VNum 500 ]})
          = Ok false
          ∧ neq_undefined VNull = false
          ∧ truthy (VStr "") = true)).
Proof.
  assert (_parseRequestResults sample_ToNumber VNull
            (VObj {[ "statusCode" := VNum 500 ]}) (VStr "")
          = Ok {| err := VStr "";
                  results := VUndefined;
                  status := {| code := VNum 500; message := VUndefined |} |})
    as Henv by reflexivity.
  split; [exact Henv|].
  exact (envelope_err_truthy_iff sample_ToNumber _ _ _ _ Henv).
Defined.

(** X6 at the first test vector of the specification. *)
Lemma results_null_iff_empty_witness :
  _parseRequestResults sample_ToNumber VUndefined
    (VObj {[ "statusCode" := VNum 200; "statusMessage" := VStr "OK" ]})
    (VObj {[ "results" := VArr [] ]})
  = Ok {| err := VUndefined;
          results := VNull;
          status := {| code := VNum 200; message := VStr "OK" |} |}
  ∧ (VNull = VNull ↔
       truthy VUndefined = false
       ∧ status_is_200 sample_ToNumber
           (VObj {[ "statusCode" := VNum 200;
                    "statusMessage" := VStr "OK" ]}) = Ok true
       ∧ ∃ r n,
           get (VObj {[ "results" := VArr [] ]}) "results" = Ok r
           ∧ truthy r = true
           ∧ get r "length" = Ok n
           ∧ loose_eq_number sample_ToNumber n 0 = Ok true).
Proof.
  assert (_parseRequestResults sample_ToNumber VUndefined
            (VObj {[ "statusCode" := VNum 200;
                     "statusMessage" := VStr "OK" ]})
            (VObj {[ "results" := VArr [] ]})
          = Ok {| err := VUndefined;
                  results := VNull;
                  status := {| code := VNum 200; message := VStr "OK" |} |})
    as Henv by reflexivity.
  split; [exact Henv|].
  exact (results_null_iff_empty sample_ToNumber _ _ _ _ Henv).
Defined.

(** X7 at a concrete pair: the same status, with and without headers. *)
Lemma normalizer_reads_only_status_witness :
  (get (VObj {[ "statusCode" := VNum 200; "statusMessage" := VStr "OK" ]})
     "statusCode"
   = get (VObj {[ "statusCode" := VNum 200; "statusMessage" := VStr "OK";
                  "headers" := VObj {[ "server" := VStr "SWIS" ]} ]})
       "statusCode"
   ∧ get (VObj {[ "statusCode" := VNum 200; "statusMessage" := VStr "OK" ]})
       "statusMessage"
     = get (VObj {[ "statusCode" := VNum 200; "statusMessage" := VStr "OK";
                    "headers" := VObj {[ "server" := VStr "SWIS" ]} ]})
         "statusMessage")
  ∧ _parseRequestResults sample_ToNumber VNull
      (VObj {[ "statusCode" := VNum 200; "statusMessage" := VStr "OK" ]})
      (VObj {[ "NodeID" := VNum 5 ]})
    = _parseRequestResults sample_ToNumber VNull
        (VObj {[ "statusCode" := VNum 200; "statusMessage" := VStr "OK";
                 "headers" := VObj {[ "server" := VStr "SWIS" ]} ]})
        (VObj {[ "NodeID" := VNum 5 ]}).
Proof.
  split; [split; reflexivity|].
  apply (normalizer_reads_only_status sample_ToNumber VNull
           (VObj {[ "statusCode" := VNum 200; "statusMessage" := VStr "OK" ]})
           (VObj {[ "statusCode" := VNum 200; "statusMessage" := VStr "OK";
                    "headers" := VObj {[ "server" := VStr "SWIS" ]} ]})
           (VObj {[ "NodeID" := VNum 5 ]})); reflexivity.
Defined.

(** X8 at a concrete triple: status 200 and a list of one row. *)
Lemma normalizer_returns_on_plain_responses_witness :
  ((∀ sc, get (VObj {[ "statusCode" := VNum 200 ]}) "statusCode" = Ok sc ->
      scalar sc = true)
   ∧ (∀ r n,
        get (VObj {[ "results" := VArr [VNum 1] ]}) "results" = Ok r ->
        get r "length" = Ok n ->
        scalar n = true))
  ∧ ∃ env,
      _parseRequestResults sample_ToNumber VNull
        (VObj {[ "statusCode" := VNum 200 ]})
        (VObj {[ "results" := VArr [VNum 1] ]}) = Ok env.
Proof.
  assert (∀ sc, get (VObj {[ "statusCode" := VNum 200 ]}) "statusCode" = Ok sc ->
            scalar sc = true) as Hcode.
  { intros sc Hsc. vm_compute in Hsc. by injection Hsc as <-. }
  assert (∀ r n,
            get (VObj {[ "results" := VArr [VNum 1] ]}) "results" = Ok r ->
            get r "length" = Ok n ->
            scalar n = true) as Hbody.
  { intros r n Hr Hn. vm_compute in Hr. injection Hr as <-.
    vm_compute in Hn. by injection Hn as <-. }
  split; [split; [exact Hcode|exact Hbody]|].
  exact (normalizer_returns_on_plain_responses sample_ToNumber VNull
           (VObj {[ "statusCode" := VNum 200 ]})
           (VObj {[ "results" := VArr [VNum 1] ]}) Hcode Hbody).
Defined.

(** X9 at a concrete call: a client with its own configuration, while the
    shared defaults are overwritten. *)
Lemma operations_ignore_other_configurations_witness :
  (options (init (RObject 2%positive)) = RObject 2%positive
   ∧ 2%positive ≠ defaultOptions)
  ∧ dispatch sample_ToString sample_global_object
      (<[defaultOptions :=
           {| server := "10.0.0.9"; port := 443;
              auth := {| username := "guest"; password := "guest" |} |}]>
         (<[2%positive :=
              {| server := "orion.example"; port := 17778;
                 auth := {| username := "ops"; password := "s3cret" |} |}]>
            module_heap))
      (init (RObject 2%positive)) (Read "swis://x")
    = dispatch sample_ToString sample_global_object
        (<[2%positive :=
             {| server := "orion.example"; port := 17778;
                auth := {| username := "ops"; password := "s3cret" |} |}]>
           module_heap)
        (init (RObject 2%positive)) (Read "swis://x")
  ∧ perform sample_ToNumber sample_ToString sample_global_object refused
      (<[defaultOptions :=
           {| server := "10.0.0.9"; port := 443;
              auth := {| username := "guest"; password := "guest" |} |}]>
         (<[2%positive :=
              {| server := "orion.example"; port := 17778;
                 auth := {| username := "ops"; password := "s3cret" |} |}]>
            module_heap))
      (init (RObject 2%positive)) (Read "swis://x")
    = perform sample_ToNumber sample_ToString sample_global_object refused
        (<[2%positive :=
             {| server := "orion.example"; port := 17778;
                auth := {| username := "ops"; password := "s3cret" |} |}]>
           module_heap)
        (init (RObject 2%positive)) (Read "swis://x").
Proof.
  split; [split; [reflexivity|discriminate]|].
  apply (operations_ignore_other_configurations sample_ToNumber
           sample_ToString sample_global_object refused _
           (init (RObject 2%positive)) 2%positive defaultOptions);
    [reflexivity|discriminate].
Defined.

(** X10 at a concrete call: a global [orionObject] naming another entity
    than the [object] argument. *)
Lemma create_posts_to_the_global_witness :
  (deref module_heap (options (init RUndefined)) = Ok default_configuration
   ∧ ({[ "orionObject" := VStr "Orion.Pollers" ]} : gmap string value)
       !! "orionObject" = Some (VStr "Orion.Pollers"))
  ∧ create sample_ToString {[ "orionObject" := VStr "Orion.Pollers" ]}
      module_heap (init RUndefined) (VObj ∅) "Orion.Nodes"
    = Ok {| method := POST;
            url := spec_url default_configuration "Create/Orion.Pollers";
            opts := _constructServerPostRequest default_configuration
                      (VObj ∅) |}
  ∧ ∀ object',
      create sample_ToString {[ "orionObject" := VStr "Orion.Pollers" ]}
        module_heap (init RUndefined) (VObj ∅) object'
      = create sample_ToString {[ "orionObject" := VStr "Orion.Pollers" ]}
          module_heap (init RUndefined) (VObj ∅) "Orion.Nodes".
Proof.
  split; [split; reflexivity|].
  apply (create_posts_to_the_global sample_ToString
           {[ "orionObject" := VStr "Orion.Pollers" ]} module_heap
           (init RUndefined) default_configuration (VObj ∅) "Orion.Nodes"
           "Orion.Pollers"); reflexivity.
Defined.

(** X11 at the second test vector of the specification. *)
Lemma defined_results_imply_success_witness :
  (_parseRequestResults sample_ToNumber VUndefined
     (VObj {[ "statusCode" := VNum 200; "statusMessage" := VStr "OK" ]})
     (VObj {[ "results" := VArr [VObj {[ "a" := VNum 1 ]}] ]})
   = Ok {| err := VUndefined;
           results := VArr [VObj {[ "a" := VNum 1 ]}];
           status := {| code := VNum 200; message := VStr "OK" |} |}
   ∧ VArr [VObj {[ "a" := VNum 1 ]}] ≠ VUndefined)
  ∧ VUndefined = VUndefined
  ∧ truthy VUndefined = false
  ∧ loose_eq_number sample_ToNumber (VNum 200) 200 = Ok true.
Proof.
  assert (_parseRequestResults sample_ToNumber VUndefined
            (VObj {[ "statusCode" := VNum 200;
                     "statusMessage" := VStr "OK" ]})
            (VObj {[ "results" := VArr [VObj {[ "a" := VNum 1 ]}] ]})
          = Ok {| err := VUndefined;
                  results := VArr [VObj {[ "a" := VNum 1 ]}];
                  status := {| code := VNum 200; message := VStr "OK" |} |})
    as Henv by reflexivity.
  split; [split; [exact Henv|discriminate]|].
  apply (defined_results_imply_success sample_ToNumber _ _ _ _ Henv).
  discriminate.
Defined.
